(** * PhishGuard front end: the two React components and their request life cycle

    The repository ships two versions of the same component:
    - [src/frontend/src/App.jsx] (module [AppJsx]): trims the input, checks
      [resp.ok], keeps a separate [error] state and renders label, score and
      reasons of the service's answer;
    - [src/frontend/src/App.js] (module [AppJs]): sends the input as typed,
      stores [data.prediction] and renders one of two verdict boxes.

    Both are embedded as pure functions on the component's state.  The
    asynchronous [handleSubmit] is cut at its [await fetch(...)]: the part
    before it ([handleSubmit_start]) runs when the form is submitted and may
    hand a request to the transport, the part after it
    ([handleSubmit_resume]) runs when that request settles.  The later
    awaits ([resp.text()], [resp.json()]) touch no state, so the outcome of
    the whole transport exchange is delivered in one piece.

    [render] is the element tree a component returns; for [App.jsx],
    [AppJsx.screen] is what React then puts on the page: the score line as
    text, the chips as text, and nothing at all when a chip holds a plain
    object, which React refuses with an exception. *)

From Stdlib Require Import NArith ZArith List Bool.
From Stdlib Require Import Strings.String Strings.Ascii.
From Stdlib Require Import Floats.PrimFloat Floats.SpecFloat Floats.FloatOps.
From stdpp Require Import base decidable option list numbers gmap pretty.

Open Scope N_scope.

(** ** JavaScript strings

    A JavaScript string is a sequence of UTF-16 code units. *)

Abbreviation jsstring := (list N).

(** The code units of an ASCII literal of the source. *)
Definition utf16 (s : string) : jsstring :=
  map N_of_ascii (list_ascii_of_string s).

(** ECMAScript [WhiteSpace] and [LineTerminator] code points: what
    [String.prototype.trim] strips. *)
Definition is_white_space (c : N) : bool :=
  bool_decide (c ∈ [0x9; 0xB; 0xC; 0x20; 0xA0; 0x1680; 0x202F; 0x205F; 0x3000; 0xFEFF])
  || ((0x2000 <=? c) && (c <=? 0x200A)).

Definition is_line_terminator (c : N) : bool :=
  bool_decide (c ∈ [0xA; 0xD; 0x2028; 0x2029]).

Definition is_trimmed_unit (c : N) : bool :=
  is_white_space c || is_line_terminator c.

Fixpoint trimStart (s : jsstring) : jsstring :=
  match s with
  | c :: rest => if is_trimmed_unit c then trimStart rest else s
  | [] => []
  end.

Definition trimEnd (s : jsstring) : jsstring := rev (trimStart (rev s)).

(** [s.trim()] *)
Definition trim (s : jsstring) : jsstring := trimEnd (trimStart s).

(** ** [JSON.stringify] of a string (ECMAScript [QuoteJSONString]) *)

Definition hex_digit (d : N) : N :=
  if d <? 10 then 48 + d else 87 + d.

(** [UnicodeEscape]: a backslash, [u] and four lowercase hexadecimal digits. *)
Definition unicode_escape (c : N) : jsstring :=
  [92; 117; hex_digit (c / 4096 mod 16); hex_digit (c / 256 mod 16);
   hex_digit (c / 16 mod 16); hex_digit (c mod 16)].

Definition is_leading_surrogate (c : N) : bool := (0xD800 <=? c) && (c <=? 0xDBFF).
Definition is_trailing_surrogate (c : N) : bool := (0xDC00 <=? c) && (c <=? 0xDFFF).

(** One code unit outside the surrogate range. *)
Definition quote_unit (c : N) : jsstring :=
  if c =? 0x8 then [92; 98]
  else if c =? 0x9 then [92; 116]
  else if c =? 0xA then [92; 110]
  else if c =? 0xC then [92; 102]
  else if c =? 0xD then [92; 114]
  else if c =? 0x22 then [92; 34]
  else if c =? 0x5C then [92; 92]
  else if c <? 0x20 then unicode_escape c
  else [c].

(** The body of the quoted string: a well-formed surrogate pair is one code
    point and is copied, a lone surrogate is escaped. *)
Fixpoint quote_units (s : jsstring) : jsstring :=
  match s with
  | [] => []
  | c :: rest =>
      if is_leading_surrogate c then
        match rest with
        | d :: rest' =>
            if is_trailing_surrogate d then c :: d :: quote_units rest'
            else unicode_escape c ++ quote_units rest
        | [] => unicode_escape c
        end
      else if is_trailing_surrogate c then unicode_escape c ++ quote_units rest
      else quote_unit c ++ quote_units rest
  end.

Definition QuoteJSONString (s : jsstring) : jsstring :=
  [34] ++ quote_units s ++ [34].

(** [a || b] on strings: the empty string is the only falsy one. *)
Definition or_string (a b : jsstring) : jsstring :=
  if decide (a = []) then b else a.

(** ** JavaScript values

    What [JSON.parse] produces, plus [undefined] (a property that is not
    there).  A number is an IEEE 754 binary64, as in the language.  The
    fields of a parsed object have pairwise distinct names. *)

#[warnings="-register-all"]
Inductive value : Type :=
  | VUndefined
  | VNull
  | VBool (b : bool)
  | VNum (x : float)
  | VStr (s : jsstring)
  | VArr (items : list value)
  | VObj (fields : list (jsstring * value)).

(** [ToBoolean] *)
Definition truthy (v : value) : bool :=
  match v with
  | VUndefined | VNull => false
  | VBool b => b
  | VNum x => negb (is_zero x || is_nan x)
  | VStr s => negb (bool_decide (s = []))
  | VArr _ | VObj _ => true
  end.

(** [v === n] for a number literal [n] *)
Definition strict_eq_number (v : value) (n : float) : bool :=
  match v with
  | VNum x => (x =? n)%float
  | _ => false
  end.

(** [v === s] for a string literal [s] *)
Definition strict_eq_string (v : value) (s : jsstring) : bool :=
  match v with
  | VStr t => bool_decide (t = s)
  | _ => false
  end.

Fixpoint lookup_field (k : jsstring) (fields : list (jsstring * value)) : value :=
  match fields with
  | [] => VUndefined
  | (k', v) :: rest => if decide (k' = k) then v else lookup_field k rest
  end.

(** [v.k] on a value that is neither [null] nor [undefined], for the names
    this program reads ([label], [score], [reasons], [prediction]): none of
    them is a property of a string, number, boolean or array. *)
Definition prop (v : value) (k : jsstring) : value :=
  match v with
  | VObj fields => lookup_field k fields
  | _ => VUndefined
  end.

(** ** Errors and settled promises *)

Record JsError := Error { message : jsstring }.

Inductive outcome (A : Type) : Type :=
  | Fulfilled (a : A)
  | Thrown (e : JsError).
Arguments Fulfilled {A} a.
Arguments Thrown {A} e.

#[global] Instance outcome_ret : MRet outcome := fun A a => Fulfilled a.
#[global] Instance outcome_bind : MBind outcome := fun A B k m =>
  match m with
  | Fulfilled a => k a
  | Thrown e => Thrown e
  end.

(** The engine's [TypeError] for a property read on [null] or [undefined]
    (V8's wording; no caller looks at the text). *)
Definition TypeError_read (base k : string) : JsError :=
  Error (utf16 ("Cannot read properties of " ++ base
                ++ " (reading '" ++ k ++ "')")%string).

(** [v.k] where [v] may be [null] or [undefined]. *)
Definition read_prop (v : value) (k : string) : outcome value :=
  match v with
  | VUndefined => Thrown (TypeError_read "undefined" k)
  | VNull => Thrown (TypeError_read "null" k)
  | _ => Fulfilled (prop v (utf16 k))
  end.

(** ** The transport: [fetch]

    A request as handed to [fetch], and what comes back: the promise rejects
    (no response), or a response arrives whose body is then read with
    [text()] or [json()]; either read may itself reject. *)

Record Request := {
  target : jsstring;
  method : jsstring;
  headers : list (jsstring * jsstring);
  body : jsstring
}.

Record Response := {
  status : N;
  text : outcome jsstring;
  json : outcome value
}.

(** [resp.ok]: the status is in the range 200-299. *)
Definition ok (resp : Response) : bool :=
  (200 <=? status resp) && (status resp <=? 299).

(** [JSON.stringify({ url: u })] for a string [u]. *)
Definition JSON_stringify_url (u : jsstring) : jsstring :=
  utf16 "{" ++ QuoteJSONString (utf16 "url") ++ utf16 ":" ++ QuoteJSONString u ++ utf16 "}".

(** [ToString] of a status code, a natural number. *)
Definition Number_toString (n : N) : jsstring := utf16 (pretty n).

(** ** Numbers as text

    [Number::toString] and [Number.prototype.toFixed] of ECMAScript, on the
    exact value of the double. *)













(** ** What React does with a child

    A string or a number is drawn as text, [null], [undefined] and booleans
    as nothing, an array as its elements one after the other.  A plain
    object is refused: React throws ("Objects are not valid as a React
    child") and, with no error boundary in this program, removes the whole
    component from the page. *)



(** ** What a verdict on the screen amounts to *)

Record Verdict := {
  isPhishing : bool;
  confidence : option float;
  reasons : list value
}.

(** A JSX child [{c && <element/>}]: the element when [c] is truthy, else
    the falsy value [c] itself, of which React draws nothing for [null],
    [undefined], [false] and the empty string, and the digits for a falsy
    number. *)
Inductive child (A : Type) : Type :=
  | Falsy (v : value)
  | Element (a : A).
Arguments Falsy {A} v.
Arguments Element {A} a.

Definition and_then {A : Type} (c : value) (a : A) : child A :=
  if truthy c then Element a else Falsy c.

(** ** [src/frontend/src/App.jsx] *)

Module AppJsx.

(** The four [useState] cells; [error] is [null] or a string. *)
Record State := {
  url : jsstring;
  loading : bool;
  result : value;
  error : option jsstring
}.

Definition initial : State :=
  {| url := []; loading := false; result := VNull; error := None |}.

Definition setUrl (u : jsstring) (st : State) : State :=
  {| url := u; loading := loading st; result := result st; error := error st |}.
Definition setLoading (b : bool) (st : State) : State :=
  {| url := url st; loading := b; result := result st; error := error st |}.
Definition setResult (v : value) (st : State) : State :=
  {| url := url st; loading := loading st; result := v; error := error st |}.
Definition setError (e : option jsstring) (st : State) : State :=
  {| url := url st; loading := loading st; result := result st; error := e |}.

Definition apiUrl : jsstring := utf16 "http://127.0.0.1:5000/predict_url".

(** [handleSubmit] up to [await fetch(...)]: the new state, and the request
    handed to [fetch] if the function got that far. *)
Definition handleSubmit_start (st : State) : State * option Request :=
  let st := setError None st in
  let st := setResult VNull st in
  let trimmed := trim (or_string (url st) []) in
  if decide (trimmed = []) then
    (setError (Some (utf16 "Please enter a URL to scan.")) st, None)
  else
    (setLoading true st,
     Some {| target := apiUrl;
             method := utf16 "POST";
             headers := [(utf16 "Content-Type", utf16 "application/json")];
             body := JSON_stringify_url trimmed |}).

(** The [try] block from the point where [fetch] settles: the parsed body,
    or what is thrown. *)
Definition try_block (fetched : outcome Response) : outcome value :=
  resp ← fetched;
  if negb (ok resp) then
    body_text ← text resp;
    Thrown (Error (utf16 "Server error: " ++
                   (if decide (body_text = []) then Number_toString (status resp)
                    else body_text)))
  else
    data ← json resp;
    mret data.

(** [handleSubmit] from the point where [fetch] settles: [try], [catch],
    [finally]. *)
Definition handleSubmit_resume (fetched : outcome Response) (st : State) : State :=
  let st :=
    match try_block fetched with
    | Fulfilled data => setResult data st
    | Thrown err => setError (Some (or_string (message err) (utf16 "Network error"))) st
    end in
  setLoading false st.

(** What the score line shows: [x.toFixed(2)] or [String(v)], kept as the
    call the source makes. *)
Inductive ScoreText : Type :=
  | toFixed2 (x : float)
  | String_of (v : value).

(** One chip of the "Why:" block: [<span key={i}>{r}</span>]. *)
Record Chip := { key : nat; content : value }.

(** The result card.  [why] is [None] when the "Why:" block is not
    rendered.  [raw] is the value given to [JSON.stringify(_, null, 2)]. *)
Record ResultPanel := {
  background : jsstring;
  border : jsstring;
  verdict_text : jsstring;
  score_text : ScoreText;
  why : option (list Chip);
  raw : value
}.

Record View := {
  input_value : jsstring;
  button_text : jsstring;
  error_box : child jsstring;
  result_panel : child ResultPanel
}.

Definition Phishing_text : jsstring := utf16 "Phishing " ++ [0x26A0; 0xFE0F].
Definition Safe_text : jsstring := utf16 "Safe " ++ [0x2705].

(** [typeof score === "number" ? score.toFixed(2) : String(score)] *)
Definition render_score (score : value) : ScoreText :=
  match score with
  | VNum x => toFixed2 x
  | _ => String_of score
  end.

Definition render_why (reasons : value) : option (list Chip) :=
  match reasons with
  | VArr items =>
      if (0 <? length items)%nat
      then Some (imap (fun i r => {| key := i; content := r |}) items)
      else None
  | _ => None
  end.

Definition render_result (result : value) : ResultPanel :=
  let phishing := strict_eq_number (prop result (utf16 "label")) 1 in
  {| background := if phishing then utf16 "#fee2e2" else utf16 "#dcfce7";
     border := if phishing then utf16 "1px solid #fca5a5" else utf16 "1px solid #bbf7d0";
     verdict_text := if phishing then Phishing_text else Safe_text;
     score_text := render_score (prop result (utf16 "score"));
     why := render_why (prop result (utf16 "reasons"));
     raw := result |}.

(** The component's return value. *)
Definition render (st : State) : View :=
  {| input_value := url st;
     button_text := if loading st then utf16 "Checking..." else utf16 "Check";
     error_box :=
       match error st with
       | Some e => and_then (VStr e) e
       | None => Falsy VNull
       end;
     result_panel := and_then (result st) (render_result (result st)) |}.

(** *** What is on the screen

    The element tree above still holds calls and values; the page holds
    text.  [paint] evaluates the score line and hands every child to
    React. *)










End AppJsx.

(** ** [src/frontend/src/App.js] *)

Module AppJs.

Record State := {
  url : jsstring;
  result : value;
  loading : bool
}.

Definition initial : State :=
  {| url := []; result := VNull; loading := false |}.

Definition setUrl (u : jsstring) (st : State) : State :=
  {| url := u; result := result st; loading := loading st |}.
Definition setResult (v : value) (st : State) : State :=
  {| url := url st; result := v; loading := loading st |}.
Definition setLoading (b : bool) (st : State) : State :=
  {| url := url st; result := result st; loading := b |}.

(** [handleSubmit] up to [await fetch(...)]. *)
Definition handleSubmit_start (st : State) : State * option Request :=
  let st := setLoading true st in
  let st := setResult VNull st in
  (st,
   Some {| target := utf16 "http://127.0.0.1:5000/predict_url";
           method := utf16 "POST";
           headers := [(utf16 "Content-Type", utf16 "application/json")];
           body := JSON_stringify_url (url st) |}).

(** The [try] block from the point where [fetch] settles: the value given
    to [setResult], or what is thrown. *)
Definition try_block (fetched : outcome Response) : outcome value :=
  response ← fetched;
  data ← json response;
  read_prop data "prediction".

Definition failure_object : value :=
  VObj [(utf16 "error", VStr (utf16 "Something went wrong!"))].

(** [handleSubmit] from the point where [fetch] settles.  The [catch]
    block also logs to the console, which is not modelled. *)
Definition handleSubmit_resume (fetched : outcome Response) (st : State) : State :=
  let st :=
    match try_block fetched with
    | Fulfilled prediction => setResult prediction st
    | Thrown _ => setResult failure_object st
    end in
  setLoading false st.

Record ResultBox := {
  className : jsstring;
  box_text : jsstring
}.

Record View := {
  input_value : jsstring;
  spinner : bool;
  result_box : child ResultBox
}.

Definition Phishing_text : jsstring := [0x26A0; 0xFE0F] ++ utf16 " Phishing Website!".
Definition Legitimate_text : jsstring := [0x2705] ++ utf16 " Legitimate Website".

Definition render_result (result : value) : ResultBox :=
  let phishing := strict_eq_string result (utf16 "phishing") in
  {| className := utf16 "result " ++ (if phishing then utf16 "phishing" else utf16 "legit");
     box_text := if phishing then Phishing_text else Legitimate_text |}.

(** The component's return value. *)
Definition render (st : State) : View :=
  {| input_value := url st;
     spinner := loading st;
     result_box := and_then (result st) (render_result (result st)) |}.

(** The verdict a result box puts on the screen: this component draws
    neither a score nor reasons. *)
Definition verdict_of_box (b : ResultBox) : Verdict :=
  {| isPhishing := bool_decide (box_text b = Phishing_text);
     confidence := None;
     reasons := [] |}.

Definition displayed_verdict (v : View) : option Verdict :=
  match result_box v with
  | Element b => Some (verdict_of_box b)
  | Falsy _ => None
  end.

End AppJs.

(** ** The event loop

    One component instance, the requests in flight and every request handed
    to [fetch] so far (oldest first; a request's position is its id).
    Events run to completion one at a time: the user edits the field, the
    form is submitted, a request in flight settles. *)

Class Component (State : Type) := {
  on_change : jsstring -> State -> State;
  submit_start : State -> State * option Request;
  submit_resume : outcome Response -> State -> State
}.

#[global] Instance jsx_component : Component AppJsx.State := {
  on_change := AppJsx.setUrl;
  submit_start := AppJsx.handleSubmit_start;
  submit_resume := AppJsx.handleSubmit_resume
}.

#[global] Instance js_component : Component AppJs.State := {
  on_change := AppJs.setUrl;
  submit_start := AppJs.handleSubmit_start;
  submit_resume := AppJs.handleSubmit_resume
}.

Record World (State : Type) := {
  app : State;
  pending : gmap nat Request;
  issued : list Request
}.
Arguments app {State} w.
Arguments pending {State} w.
Arguments issued {State} w.

(** [Change u]: the field's [onChange] with the new text.  [Submit]: the
    form's [onSubmit]; the button is never disabled, so it may come while
    requests are in flight.  (In [App.js] the input is [required]: a browser
    fires no submit event while the field is empty.)  [Settle id fetched]:
    request [id] settles with [fetched] and the rest of its [handleSubmit]
    runs. *)
Inductive Event : Type :=
  | Change (u : jsstring)
  | Submit
  | Settle (id : nat) (fetched : outcome Response).

Definition boot {State : Type} (st : State) : World State :=
  {| app := st; pending := ∅; issued := [] |}.

Definition step {State : Type} `{Component State} (w : World State) (e : Event)
    : option (World State) :=
  match e with
  | Change u =>
      Some {| app := on_change u (app w); pending := pending w; issued := issued w |}
  | Submit =>
      match submit_start (app w) with
      | (st, Some r) =>
          Some {| app := st;
                  pending := <[length (issued w) := r]> (pending w);
                  issued := issued w ++ [r] |}
      | (st, None) =>
          Some {| app := st; pending := pending w; issued := issued w |}
      end
  | Settle id fetched =>
      match pending w !! id with
      | Some _ =>
          Some {| app := submit_resume fetched (app w);
                  pending := delete id (pending w);
                  issued := issued w |}
      | None => None
      end
  end.

Fixpoint run {State : Type} `{Component State} (w : World State) (es : list Event)
    : option (World State) :=
  match es with
  | [] => Some w
  | e :: es' =>
      match step w e with
      | Some w' => run w' es'
      | None => None
      end
  end.

(** Every request in flight was handed to [fetch]: its id is a position in
    [issued]. *)
Definition pending_bounded {State : Type} (w : World State) : Prop :=
  forall id, is_Some (pending w !! id) -> (id < length (issued w))%nat.






(** ** The spec's Response Interpreter (section 4.3), for comparison

    Written from the spec's words, not from the code: Shape A when
    [payload.label] is exactly 0 or 1, else Shape B when
    [payload.prediction] is a string, else [UnrecognizedShape] ([None]). *)

Definition spec_confidence (score : value) : option float :=
  match score with
  | VNum x => if is_finite x then Some x else None
  | _ => None
  end.

Definition spec_reasons (reasons : value) : list value :=
  match reasons with
  | VArr (r :: rs) => r :: rs
  | _ => []
  end.

Definition is_shape_A (payload : value) : bool :=
  strict_eq_number (prop payload (utf16 "label")) 0
  || strict_eq_number (prop payload (utf16 "label")) 1.

Definition spec_interpret (payload : value) : option Verdict :=
  if is_shape_A payload then
    Some {| isPhishing := strict_eq_number (prop payload (utf16 "label")) 1;
            confidence := spec_confidence (prop payload (utf16 "score"));
            reasons := spec_reasons (prop payload (utf16 "reasons")) |}
  else
    match prop payload (utf16 "prediction") with
    | VStr s =>
        Some {| isPhishing := bool_decide (s = utf16 "phishing");
                confidence := None;
                reasons := [] |}
    | _ => None
    end.

(** The code units of a literal in which ['] stands for the double quote. *)
Definition dq (s : string) : jsstring :=
  map (fun c => if c =? 39 then 34 else c) (utf16 s).

(** ** Sample payloads and responses

    A decimal literal such as [0.93] denotes the nearest binary64, as it
    does in JavaScript. *)

#[local] Set Warnings "-inexact-float".

Module Samples.

(** A response with the given status, body text and parse of the body. *)
Definition json_response (code : N) (body_text : string) (payload : value) : Response :=
  {| status := code; text := Fulfilled (dq body_text); json := Fulfilled payload |}.

(** A response whose body is not JSON: [json()] rejects with a [SyntaxError]. *)
Definition html_response (code : N) (body_text : string) : Response :=
  {| status := code;
     text := Fulfilled (dq body_text);
     json := Thrown (Error (utf16 "Unexpected token '<'")) |}.

(** [{ label: 1, score: 0.93, reasons: ["ip-literal-host"] }] *)
Definition phishing_A : value :=
  VObj [(utf16 "label", VNum 1); (utf16 "score", VNum 0.93);
        (utf16 "reasons", VArr [VStr (utf16 "ip-literal-host")])].

(** [{ label: 0, score: 0.12 }] *)
Definition safe_A : value :=
  VObj [(utf16 "label", VNum 0); (utf16 "score", VNum 0.12)].


Definition safe_A_response : Response :=
  json_response 200 "{'label':0,'score':0.12}" safe_A.





(** [{ reasons: [{ code: "x" }] }] *)
Definition only_object_reasons : value :=
  VObj [(utf16 "reasons", VArr [VObj [(utf16 "code", VStr (utf16 "x"))]])].


(** [{ prediction: "phishing" }], [{ prediction: "legit" }], [{ prediction: "" }] *)
Definition prediction (s : string) : value :=
  VObj [(utf16 "prediction", VStr (utf16 s))].


Definition evil_input : jsstring := utf16 "  http://evil.example/login  ".

(** [fetch] rejecting: connection refused. *)
Definition connection_refused : JsError := Error (utf16 "Failed to fetch").

(** [App.jsx] after an earlier scan that came back as phishing: the card is
    on the screen and the field still holds the address. *)
Definition after_phishing_scan : World AppJsx.State :=
  {| app := {| AppJsx.url := utf16 "http://evil.example/login";
               AppJsx.loading := false;
               AppJsx.result := phishing_A;
               AppJsx.error := None |};
     pending := ∅;
     issued := [{| target := AppJsx.apiUrl;
                   method := utf16 "POST";
                   headers := [(utf16 "Content-Type", utf16 "application/json")];
                   body := dq "{'url':'http://evil.example/login'}" |}] |}.

End Samples.

(** ** Traces of the event loop *)

(** The text in the input field after the events [es], [u] being the text
    before them: only [onChange] writes it. *)
Fixpoint field_text (es : list Event) (u : jsstring) : jsstring :=
  match es with
  | [] => u
  | Change u' :: es' => field_text es' u'
  | _ :: es' => field_text es' u
  end.

(** The text in the input field at each [Submit] of [es], oldest first. *)
Fixpoint submitted_texts (es : list Event) (u : jsstring) : list jsstring :=
  match es with
  | [] => []
  | Change u' :: es' => submitted_texts es' u'
  | Submit :: es' => u :: submitted_texts es' u
  | Settle _ _ :: es' => submitted_texts es' u
  end.

(** The request both components build around a url [t]. *)
Definition post_request (t : jsstring) : Request :=
  {| target := utf16 "http://127.0.0.1:5000/predict_url";
     method := utf16 "POST";
     headers := [(utf16 "Content-Type", utf16 "application/json")];
     body := JSON_stringify_url t |}.

(** ** Reading a quoted string back

    The inverse of [quote_units] on its image: the escapes that
    [QuoteJSONString] writes, as any JSON parser reads them. *)

Definition unhex (c : N) : N :=
  if c <? 58 then c - 48 else c - 87.

Definition unescape (e : N) : N :=
  if e =? 98 then 0x8
  else if e =? 116 then 0x9
  else if e =? 110 then 0xA
  else if e =? 102 then 0xC
  else if e =? 114 then 0xD
  else e.

Fixpoint unquote_units (q : jsstring) : jsstring :=
  match q with
  | [] => []
  | c :: rest =>
      if c =? 92 then
        match rest with
        | e :: rest1 =>
            if e =? 117 then
              match rest1 with
              | h3 :: h2 :: h1 :: h0 :: rest2 =>
                  (4096 * unhex h3 + 256 * unhex h2 + 16 * unhex h1 + unhex h0)
                  :: unquote_units rest2
              | _ => []
              end
            else unescape e :: unquote_units rest1
        | [] => []
        end
      else c :: unquote_units rest
  end.

(** * Properties *)

(** ** Strings *)

Lemma trimStart_blank (s : jsstring) :
  forallb is_trimmed_unit s = true -> trimStart s = [].
Proof.
  induction s as [|c s IH]; simpl; [done|].
  intros [Hc Hs]%andb_prop. rewrite Hc. auto.
Qed.

Lemma trim_blank (s : jsstring) :
  forallb is_trimmed_unit s = true -> trim s = [].
Proof.
  intros Hs. unfold trim, trimEnd. by rewrite (trimStart_blank s Hs).
Qed.

Lemma trimStart_nil_blank (s : jsstring) :
  trimStart s = [] -> forallb is_trimmed_unit s = true.
Proof.
  induction s as [|c s IH]; simpl; [done|].
  destruct (is_trimmed_unit c); [auto | discriminate].
Qed.

Lemma trimStart_suffix (s : jsstring) :
  exists white, s = white ++ trimStart s /\ forallb is_trimmed_unit white = true.
Proof.
  induction s as [|c s (white & Hs & Hw)]; simpl.
  - by exists [].
  - destruct (is_trimmed_unit c) eqn:Hc.
    + exists (c :: white). simpl. rewrite Hc, Hw. split; [by f_equal | done].
    + by exists [].
Qed.

(** A string trims to the empty string exactly when it is empty or made of
    white space and line terminators only. *)
Lemma trim_nil_iff (s : jsstring) :
  trim s = [] <-> forallb is_trimmed_unit s = true.
Proof.
  split; [|apply trim_blank].
  unfold trim, trimEnd. intros H.
  apply (f_equal (@rev N)) in H. rewrite rev_involutive in H. simpl in H.
  apply trimStart_nil_blank in H.
  rewrite forallb_forall in H.
  assert (Hrest : forallb is_trimmed_unit (trimStart s) = true).
  { rewrite forallb_forall. intros c Hc. apply H. by apply in_rev in Hc. }
  destruct (trimStart_suffix s) as (white & Hs & Hw).
  rewrite Hs, forallb_app, Hw. exact Hrest.
Qed.

Lemma trimStart_head (s : jsstring) (c : N) (rest : jsstring) :
  trimStart s = c :: rest -> is_trimmed_unit c = false.
Proof.
  induction s as [|d s IH]; simpl; [done|].
  destruct (is_trimmed_unit d) eqn:Hd; [exact IH|].
  by intros [= <- _].
Qed.

Lemma trimEnd_prefix (s : jsstring) :
  exists white, s = trimEnd s ++ white /\ forallb is_trimmed_unit white = true.
Proof.
  destruct (trimStart_suffix (rev s)) as (white & Hs & Hw).
  exists (rev white). split.
  - apply (f_equal (@rev N)) in Hs.
    by rewrite rev_involutive, rev_app_distr in Hs.
  - rewrite forallb_forall in *. intros c Hc. apply Hw. by apply in_rev.
Qed.

Lemma trimEnd_last (s : jsstring) (c : N) :
  last (trimEnd s) = Some c -> is_trimmed_unit c = false.
Proof.
  unfold trimEnd. destruct (trimStart (rev s)) as [|d rest] eqn:Hrev; [done|].
  simpl rev. rewrite last_snoc. intros [= <-].
  exact (trimStart_head _ _ _ Hrev).
Qed.

(** X4: [trim] removes white space at both ends and nothing else: the input is
    the trimmed string between two runs of white space, and the trimmed
    string neither starts nor ends with white space. *)
Lemma trim_spec (s : jsstring) :
  (exists before after,
     s = before ++ trim s ++ after
     /\ forallb is_trimmed_unit before = true
     /\ forallb is_trimmed_unit after = true)
  /\ (forall c, head (trim s) = Some c -> is_trimmed_unit c = false)
  /\ (forall c, last (trim s) = Some c -> is_trimmed_unit c = false).
Proof.
  destruct (trimStart_suffix s) as (before & Hs & Hbefore).
  destruct (trimEnd_prefix (trimStart s)) as (after & Ht & Hafter).
  fold (trim s) in Ht. repeat split.
  - exists before, after. rewrite <- Ht. by rewrite <- Hs.
  - intros c Hc. destruct (trim s) as [|d rest] eqn:Htrim; [done|].
    injection Hc as ->. exact (trimStart_head s c (rest ++ after) Ht).
  - apply trimEnd_last.
Qed.

Lemma or_string_nonempty (a b : jsstring) : b <> [] -> or_string a b <> [].
Proof. unfold or_string. by case_decide. Qed.

Lemma or_string_nil_r (a : jsstring) : or_string a [] = a.
Proof. unfold or_string. by case_decide. Qed.

(** ** Rendering in [App.jsx] *)

Lemma chips_content (items : list value) :
  map AppJsx.content (imap (fun i r => {| AppJsx.key := i; AppJsx.content := r |}) items)
  = items.
Proof.
  apply list_eq. intros i.
  change (map AppJsx.content) with (fmap (M:=list) AppJsx.content).
  rewrite list_lookup_fmap, list_lookup_imap.
  by destruct (items !! i).
Qed.

(** The "Why:" block is there exactly for a non-empty array, with one chip
    per element, in order. *)
Lemma jsx_why_shown (reasons : value) :
  map AppJsx.content <$> AppJsx.render_why reasons
  = match reasons with
    | VArr (r :: rs) => Some (r :: rs)
    | _ => None
    end.
Proof.
  destruct reasons as [| | | | |items|]; try reflexivity.
  destruct items as [|r rs]; [reflexivity|].
  exact (f_equal Some (chips_content (r :: rs))).
Qed.




(** ** Rendering in [App.js] *)

Lemma js_resume (fetched : outcome Response) (st : AppJs.State) :
  AppJs.handleSubmit_resume fetched st
  = AppJs.setLoading false
      (AppJs.setResult
         match AppJs.try_block fetched with
         | Fulfilled prediction => prediction
         | Thrown _ => AppJs.failure_object
         end st).
Proof. unfold AppJs.handleSubmit_resume. by destruct (AppJs.try_block fetched). Qed.

Lemma js_phishing_shown (result : value) :
  bool_decide (AppJs.box_text (AppJs.render_result result) = AppJs.Phishing_text)
  = strict_eq_string result (utf16 "phishing").
Proof.
  unfold AppJs.render_result. cbv beta zeta. simpl AppJs.box_text.
  by destruct (strict_eq_string _ _).
Qed.

Lemma js_result_box (st : AppJs.State) :
  AppJs.result_box (AppJs.render st)
  = and_then (AppJs.result st) (AppJs.render_result (AppJs.result st)).
Proof. reflexivity. Qed.

Lemma js_displayed_verdict (st : AppJs.State) :
  AppJs.displayed_verdict (AppJs.render st)
  = if truthy (AppJs.result st)
    then Some {| isPhishing := strict_eq_string (AppJs.result st) (utf16 "phishing");
                 confidence := None;
                 reasons := [] |}
    else None.
Proof.
  unfold AppJs.displayed_verdict, AppJs.render, and_then. simpl AppJs.result_box.
  destruct (truthy _); [|reflexivity].
  unfold AppJs.verdict_of_box. by rewrite js_phishing_shown.
Qed.

(** A response whose body parses to something with a [prediction] property. *)
Lemma js_try_block_prediction (resp : Response) (payload : value) :
  json resp = Fulfilled payload ->
  payload <> VNull -> payload <> VUndefined ->
  AppJs.try_block (Fulfilled resp) = Fulfilled (prop payload (utf16 "prediction")).
Proof.
  intros Hjson Hnull Hundef. unfold AppJs.try_block. simpl. rewrite Hjson. simpl.
  by destruct payload.
Qed.

(** C2 (as amended): for a JSON payload whose [prediction] is a non-empty
    string, [App.js] shows the phishing box exactly when the string is
    ["phishing"] and the legitimate box for any other string, with no
    confidence and no reasons. *)
Theorem C2_nonempty_prediction_verdict
    (st : AppJs.State) (resp : Response) (payload : value) (s : jsstring) :
  json resp = Fulfilled payload ->
  prop payload (utf16 "prediction") = VStr s ->
  s <> [] ->
  let view := AppJs.render (AppJs.handleSubmit_resume (Fulfilled resp) st) in
  AppJs.displayed_verdict view
    = Some {| isPhishing := bool_decide (s = utf16 "phishing");
              confidence := None;
              reasons := [] |}
  /\ AppJs.result_box view
     = Element (if bool_decide (s = utf16 "phishing")
                then {| AppJs.className := utf16 "result phishing";
                        AppJs.box_text := AppJs.Phishing_text |}
                else {| AppJs.className := utf16 "result legit";
                        AppJs.box_text := AppJs.Legitimate_text |}).
Proof.
  intros Hjson Hpred Hs view.
  assert (Hres : AppJs.result (AppJs.handleSubmit_resume (Fulfilled resp) st) = VStr s).
  { rewrite js_resume, (js_try_block_prediction resp payload Hjson).
    - exact Hpred.
    - intros ->. discriminate Hpred.
    - intros ->. discriminate Hpred. }
  assert (Htruthy : truthy (VStr s) = true).
  { simpl. by rewrite bool_decide_eq_false_2. }
  split.
  - unfold view. by rewrite js_displayed_verdict, Hres, Htruthy.
  - unfold view. rewrite js_result_box, Hres. unfold and_then. rewrite Htruthy.
    unfold AppJs.render_result. simpl strict_eq_string.
    by destruct (bool_decide (s = utf16 "phishing")).
Qed.

(** The spec's [{ prediction: "legit" }] through the theorem. *)
Lemma C2_witness_legit :
  AppJs.displayed_verdict
    (AppJs.render
       (AppJs.handleSubmit_resume
          (Fulfilled (Samples.json_response 200 "{'prediction':'legit'}"
                        (Samples.prediction "legit")))
          AppJs.initial))
  = Some {| isPhishing := false; confidence := None; reasons := [] |}.
Proof.
  refine (proj1 (C2_nonempty_prediction_verdict AppJs.initial
                   (Samples.json_response 200 "{'prediction':'legit'}"
                      (Samples.prediction "legit"))
                   (Samples.prediction "legit") (utf16 "legit")
                   eq_refl eq_refl _)).
  discriminate.
Defined.

(** C2 as stated fails on the empty string: [{ prediction: "" }] is Shape B
    and legitimate for the spec, but [result && ...] draws no box for it. *)
Lemma C2_empty_prediction_draws_nothing :
  prop (Samples.prediction "") (utf16 "prediction") = VStr []
  /\ spec_interpret (Samples.prediction "")
     = Some {| isPhishing := false; confidence := None; reasons := [] |}
  /\ AppJs.displayed_verdict
       (AppJs.render
          (AppJs.handleSubmit_resume
             (Fulfilled (Samples.json_response 200 "{'prediction':''}"
                           (Samples.prediction "")))
             AppJs.initial))
     = None.
Proof. by vm_compute. Qed.

(** C10: in [App.js], when [fetch] rejects or the body does not parse
    (whatever the status and the body text), [handleSubmit] stores the
    object [{ error: "Something went wrong!" }]: not [null], not the string
    ["phishing"], so the legitimate-website box is what the user sees.  The
    same happens when the body is the JSON [null], whose [prediction]
    cannot be read. *)
Theorem C10_failure_rendered_as_legitimate (st : AppJs.State) (err : JsError) :
  let shows_legitimate (st' : AppJs.State) :=
    AppJs.result st' = AppJs.failure_object
    /\ AppJs.result st' <> VNull
    /\ strict_eq_string (AppJs.result st') (utf16 "phishing") = false
    /\ AppJs.loading st' = false
    /\ AppJs.result_box (AppJs.render st')
       = Element {| AppJs.className := utf16 "result legit";
                    AppJs.box_text := AppJs.Legitimate_text |} in
  shows_legitimate (AppJs.handleSubmit_resume (Thrown err) st)
  /\ (forall (code : N) (body_text : outcome jsstring),
        shows_legitimate
          (AppJs.handleSubmit_resume
             (Fulfilled {| status := code; text := body_text; json := Thrown err |}) st))
  /\ (forall (code : N) (body_text : outcome jsstring),
        shows_legitimate
          (AppJs.handleSubmit_resume
             (Fulfilled {| status := code; text := body_text; json := Fulfilled VNull |})
             st)).
Proof.
  assert (Hcatch : forall fetched : outcome Response,
            (exists e, AppJs.try_block fetched = Thrown e) ->
            AppJs.handleSubmit_resume fetched st
            = AppJs.setLoading false (AppJs.setResult AppJs.failure_object st)).
  { intros fetched [e He]. by rewrite js_resume, He. }
  cbv zeta. split; [|split]; intros; rewrite Hcatch by (by eexists);
    (repeat split; discriminate).
Qed.

(** ** What [handleSubmit] sends *)

Lemma jsx_start_blank (st : AppJsx.State) :
  forallb is_trimmed_unit (AppJsx.url st) = true ->
  AppJsx.handleSubmit_start st
  = (AppJsx.setError (Some (utf16 "Please enter a URL to scan."))
       (AppJsx.setResult VNull (AppJsx.setError None st)),
     None).
Proof.
  intros Hblank. unfold AppJsx.handleSubmit_start. cbv zeta.
  simpl AppJsx.url. rewrite or_string_nil_r.
  rewrite (trim_blank _ Hblank). by case_decide.
Qed.

Lemma jsx_start_dispatch (st : AppJsx.State) :
  trim (AppJsx.url st) <> [] ->
  AppJsx.handleSubmit_start st
  = (AppJsx.setLoading true (AppJsx.setResult VNull (AppJsx.setError None st)),
     Some {| target := utf16 "http://127.0.0.1:5000/predict_url";
             method := utf16 "POST";
             headers := [(utf16 "Content-Type", utf16 "application/json")];
             body := JSON_stringify_url (trim (AppJsx.url st)) |}).
Proof.
  intros Hurl. unfold AppJsx.handleSubmit_start. cbv zeta.
  simpl AppJsx.url. rewrite or_string_nil_r. by case_decide.
Qed.

(** In [App.jsx] a submission hands [fetch] nothing when the input is
    blank, and otherwise exactly one POST to [/predict_url] whose JSON body
    carries the trimmed input. *)
Lemma jsx_submit_issues (w : World AppJsx.State) :
  exists w', step w Submit = Some w'
    /\ if decide (trim (AppJsx.url (app w)) = [])
       then issued w' = issued w
            /\ pending w' = pending w
            /\ AppJsx.error (app w') = Some (utf16 "Please enter a URL to scan.")
       else issued w'
            = issued w
              ++ [{| target := utf16 "http://127.0.0.1:5000/predict_url";
                     method := utf16 "POST";
                     headers := [(utf16 "Content-Type", utf16 "application/json")];
                     body := JSON_stringify_url (trim (AppJsx.url (app w))) |}].
Proof.
  unfold step. simpl submit_start. case_decide as Hurl.
  - apply trim_nil_iff in Hurl. rewrite (jsx_start_blank _ Hurl). by eexists.
  - rewrite (jsx_start_dispatch _ Hurl). by eexists.
Qed.

(** X1: in [App.jsx], submitting an input that is not blank hands [fetch]
    exactly one request: a POST to [/predict_url] with content type
    [application/json] whose body is [{"url": t}], [t] the trimmed input.
    The request is in flight, the button reads "Checking...", and error and
    result are cleared. *)
Theorem App_jsx_sends_trimmed_input (w : World AppJsx.State) :
  trim (AppJsx.url (app w)) <> [] ->
  let request :=
    {| target := utf16 "http://127.0.0.1:5000/predict_url";
       method := utf16 "POST";
       headers := [(utf16 "Content-Type", utf16 "application/json")];
       body := utf16 "{" ++ QuoteJSONString (utf16 "url") ++ utf16 ":"
               ++ QuoteJSONString (trim (AppJsx.url (app w))) ++ utf16 "}" |} in
  exists w',
    step w Submit = Some w'
    /\ issued w' = issued w ++ [request]
    /\ pending w' = <[length (issued w) := request]> (pending w)
    /\ app w' = AppJsx.setLoading true
                  (AppJsx.setResult VNull (AppJsx.setError None (app w)))
    /\ AppJsx.button_text (AppJsx.render (app w')) = utf16 "Checking...".
Proof.
  intros Hurl request. eexists. split.
  - unfold step. simpl submit_start. rewrite (jsx_start_dispatch _ Hurl). reflexivity.
  - by repeat split.
Qed.

Lemma App_jsx_sends_trimmed_input_witness :
  exists w',
    step {| app := AppJsx.setUrl Samples.evil_input AppJsx.initial;
            pending := ∅; issued := [] |} Submit = Some w'
    /\ issued w'
       = [{| target := utf16 "http://127.0.0.1:5000/predict_url";
             method := utf16 "POST";
             headers := [(utf16 "Content-Type", utf16 "application/json")];
             body := dq "{'url':'http://evil.example/login'}" |}].
Proof.
  destruct (App_jsx_sends_trimmed_input
              {| app := AppJsx.setUrl Samples.evil_input AppJsx.initial;
                 pending := ∅; issued := [] |})
    as (w' & Hstep & Hissued & _).
  - discriminate.
  - exists w'. split; [exact Hstep | exact Hissued].
Defined.

(** X2: in [App.jsx], submitting an input that is empty or all white space
    sets the error "Please enter a URL to scan." in the same step, hands
    [fetch] nothing and leaves [loading] as it was. *)
Theorem App_jsx_rejects_blank_input (w : World AppJsx.State) :
  forallb is_trimmed_unit (AppJsx.url (app w)) = true ->
  exists w',
    step w Submit = Some w'
    /\ issued w' = issued w
    /\ pending w' = pending w
    /\ AppJsx.error (app w') = Some (utf16 "Please enter a URL to scan.")
    /\ AppJsx.result (app w') = VNull
    /\ AppJsx.loading (app w') = AppJsx.loading (app w)
    /\ AppJsx.error_box (AppJsx.render (app w'))
       = Element (utf16 "Please enter a URL to scan.").
Proof.
  intros Hblank. eexists. split.
  - unfold step. simpl submit_start. rewrite (jsx_start_blank _ Hblank). reflexivity.
  - by repeat split.
Qed.

Lemma App_jsx_rejects_blank_input_witness :
  exists w',
    step (boot (AppJsx.setUrl (utf16 "   ") AppJsx.initial)) Submit = Some w'
    /\ issued w' = []
    /\ pending w' = ∅
    /\ AppJsx.error (app w') = Some (utf16 "Please enter a URL to scan.")
    /\ AppJsx.result (app w') = VNull
    /\ AppJsx.loading (app w') = false
    /\ AppJsx.error_box (AppJsx.render (app w'))
       = Element (utf16 "Please enter a URL to scan.").
Proof.
  exact (App_jsx_rejects_blank_input
           (boot (AppJsx.setUrl (utf16 "   ") AppJsx.initial)) eq_refl).
Defined.

(** The spec's end-to-end example, on [App.jsx]. *)
Example jsx_evil_example :
  issued <$> run (boot AppJsx.initial) [Change Samples.evil_input; Submit]
  = Some [{| target := utf16 "http://127.0.0.1:5000/predict_url";
             method := utf16 "POST";
             headers := [(utf16 "Content-Type", utf16 "application/json")];
             body := dq "{'url':'http://evil.example/login'}" |}].
Proof. reflexivity. Qed.

(** C3: [App.js] sends the input as typed, not trimmed.  Submitting
    ["  http://evil.example/login  "] issues one POST whose body keeps the
    two spaces on either side. *)
Theorem C3_App_js_sends_untrimmed_input :
  issued <$> run (boot AppJs.initial) [Change Samples.evil_input; Submit]
  = Some [{| target := utf16 "http://127.0.0.1:5000/predict_url";
             method := utf16 "POST";
             headers := [(utf16 "Content-Type", utf16 "application/json")];
             body := dq "{'url':'  http://evil.example/login  '}" |}]
  /\ dq "{'url':'  http://evil.example/login  '}"
     <> JSON_stringify_url (trim Samples.evil_input).
Proof. split; [reflexivity | discriminate]. Qed.

(** C8: [App.js] has no check on the input.  Submitting three spaces sets
    no error and hands [fetch] a request whose body is the three spaces. *)
Theorem C8_App_js_dispatches_blank_input :
  trim (utf16 "   ") = []
  /\ issued <$> run (boot AppJs.initial) [Change (utf16 "   "); Submit]
     = Some [{| target := utf16 "http://127.0.0.1:5000/predict_url";
                method := utf16 "POST";
                headers := [(utf16 "Content-Type", utf16 "application/json")];
                body := dq "{'url':'   '}" |}].
Proof. split; reflexivity. Qed.

(** The same input on [App.jsx]: the error is set at once and nothing is
    sent. *)
Example jsx_blank_example :
  (fun w => (issued w, AppJsx.error (app w), AppJsx.loading (app w)))
    <$> run (boot AppJsx.initial) [Change (utf16 "   "); Submit]
  = Some ([], Some (utf16 "Please enter a URL to scan."), false).
Proof. reflexivity. Qed.

(** ** Non-2xx responses *)

(** [App.jsx] turns a non-2xx response into the message
    ["Server error: "] followed by the body text, or by the status code
    when the body is empty, and touches neither [result] nor [url]. *)
Lemma jsx_resume_server_error (st : AppJsx.State) (resp : Response) (body_text : jsstring) :
  ok resp = false ->
  text resp = Fulfilled body_text ->
  AppJsx.handleSubmit_resume (Fulfilled resp) st
  = AppJsx.setLoading false
      (AppJsx.setError
         (Some (utf16 "Server error: "
                ++ (if decide (body_text = []) then Number_toString (status resp)
                    else body_text)))
         st).
Proof.
  intros Hok Htext. unfold AppJsx.handleSubmit_resume, AppJsx.try_block.
  simpl. rewrite Hok, Htext. simpl.
  unfold or_string. by case_decide.
Qed.

(** X3: in [App.jsx], a non-2xx response whose body can be read ends in the
    error state: the message is "Server error: " followed by the body, or
    by the status code when the body is empty; the result is not touched
    and the error box is drawn. *)
Theorem App_jsx_server_error
    (st : AppJsx.State) (resp : Response) (body_text : jsstring) :
  ok resp = false ->
  text resp = Fulfilled body_text ->
  let diagnostic :=
    utf16 "Server error: "
    ++ (if decide (body_text = []) then Number_toString (status resp) else body_text) in
  let st' := AppJsx.handleSubmit_resume (Fulfilled resp) st in
  AppJsx.error st' = Some diagnostic
  /\ AppJsx.result st' = AppJsx.result st
  /\ AppJsx.loading st' = false
  /\ AppJsx.error_box (AppJsx.render st') = Element diagnostic.
Proof.
  intros Hok Htext diagnostic st'. unfold st'.
  by rewrite (jsx_resume_server_error st resp body_text Hok Htext).
Qed.

Lemma App_jsx_server_error_witness :
  let st' :=
    AppJsx.handleSubmit_resume
      (Fulfilled (Samples.html_response 404 "<h1>Not Found</h1>"))
      (AppJsx.setLoading true AppJsx.initial) in
  AppJsx.error st' = Some (utf16 "Server error: <h1>Not Found</h1>")
  /\ AppJsx.result st' = VNull
  /\ AppJsx.loading st' = false
  /\ AppJsx.error_box (AppJsx.render st')
     = Element (utf16 "Server error: <h1>Not Found</h1>").
Proof.
  exact (App_jsx_server_error (AppJsx.setLoading true AppJsx.initial)
           (Samples.html_response 404 "<h1>Not Found</h1>")
           (utf16 "<h1>Not Found</h1>") eq_refl eq_refl).
Defined.

Example jsx_server_error_example :
  AppJsx.render
    (AppJsx.handleSubmit_resume
       (Fulfilled (Samples.json_response 500 "" (Samples.prediction "phishing")))
       AppJsx.initial)
  = {| AppJsx.input_value := [];
       AppJsx.button_text := utf16 "Check";
       AppJsx.error_box := Element (utf16 "Server error: 500");
       AppJsx.result_panel := Falsy VNull |}.
Proof. reflexivity. Qed.

(** C4: [App.js] never looks at the status.  A 500 response whose body is
    [{"prediction":"phishing"}] ends with the phishing box on the screen,
    and a 404 response with an HTML body ends with the legitimate box. *)
Theorem C4_App_js_ignores_status :
  let server_fault :=
    Samples.json_response 500 "{'prediction':'phishing'}" (Samples.prediction "phishing") in
  let not_found := Samples.html_response 404 "<h1>Not Found</h1>" in
  ok server_fault = false
  /\ AppJs.displayed_verdict
       (AppJs.render (AppJs.handleSubmit_resume (Fulfilled server_fault) AppJs.initial))
     = Some {| isPhishing := true; confidence := None; reasons := [] |}
  /\ ok not_found = false
  /\ AppJs.displayed_verdict
       (AppJs.render (AppJs.handleSubmit_resume (Fulfilled not_found) AppJs.initial))
     = Some {| isPhishing := false; confidence := None; reasons := [] |}.
Proof. repeat split. Qed.

(** ** The event loop *)

Section EventLoop.

Context {State : Type} `{Component State}.

Lemma step_submit_dispatch (w : World State) (st : State) (r : Request) :
  submit_start (app w) = (st, Some r) ->
  step w Submit
  = Some {| app := st;
            pending := <[length (issued w) := r]> (pending w);
            issued := issued w ++ [r] |}.
Proof. intros Hstart. unfold step. by rewrite Hstart. Qed.

Lemma step_settle (w : World State) (id : nat) (r : Request) (fetched : outcome Response) :
  pending w !! id = Some r ->
  step w (Settle id fetched)
  = Some {| app := submit_resume fetched (app w);
            pending := delete id (pending w);
            issued := issued w |}.
Proof. intros Hid. unfold step. by rewrite Hid. Qed.


(** One event hands [fetch] at most one request, and only a submission
    hands it any. *)
Lemma step_issued (w w' : World State) (e : Event) :
  step w e = Some w' ->
  issued w' = issued w
  \/ e = Submit /\ exists r, issued w' = issued w ++ [r]
                            /\ pending w' = <[length (issued w) := r]> (pending w).
Proof.
  destruct e as [u| |id fetched]; simpl.
  - intros [= <-]. by left.
  - destruct (submit_start (app w)) as [st [r|]]; intros [= <-]; simpl.
    + right. split; [done|]. by exists r.
    + by left.
  - destruct (pending w !! id); [|done]. intros [= <-]. by left.
Qed.

Lemma step_pending_bounded (w w' : World State) (e : Event) :
  pending_bounded w -> step w e = Some w' -> pending_bounded w'.
Proof.
  intros Hw. destruct e as [u| |id fetched]; simpl.
  - intros [= <-]. exact Hw.
  - destruct (submit_start (app w)) as [st [r|]]; intros [= <-]; [|exact Hw].
    intros id. simpl. rewrite length_app. simpl.
    destruct (decide (length (issued w) = id)) as [<-|Hne].
    + lia.
    + rewrite lookup_insert_ne by done. intros Hid%Hw. lia.
  - destruct (pending w !! id) eqn:Hid; [|done]. intros [= <-].
    intros id'. simpl. destruct (decide (id = id')) as [<-|Hne].
    + rewrite lookup_delete_eq. by intros [? ?].
    + rewrite lookup_delete_ne by done. apply Hw.
Qed.

Lemma run_pending_bounded (es : list Event) (w w' : World State) :
  pending_bounded w -> run w es = Some w' -> pending_bounded w'.
Proof.
  revert w. induction es as [|e es IH]; intros w Hw; simpl.
  - by intros [= <-].
  - destruct (step w e) as [w1|] eqn:Hstep; [|done].
    apply IH. by apply (step_pending_bounded w w1 e).
Qed.

Lemma boot_pending_bounded (st : State) : pending_bounded (boot st).
Proof. intros id. unfold boot. simpl. rewrite lookup_empty. by intros [? ?]. Qed.


End EventLoop.

(** ** The request body *)

Lemma hex_recompose (c : N) :
  c < 65536 ->
  4096 * (c / 4096 mod 16) + 256 * (c / 256 mod 16) + 16 * (c / 16 mod 16) + c mod 16 = c.
Proof.
  intros Hc.
  pose proof (N.div_mod c 16 ltac:(lia)) as H0.
  pose proof (N.div_mod (c / 16) 16 ltac:(lia)) as H1.
  pose proof (N.div_mod (c / 256) 16 ltac:(lia)) as H2.
  pose proof (N.div_mod (c / 4096) 16 ltac:(lia)) as H3.
  rewrite (N.Div0.div_div c 16 16) in H1.
  change (16 * 16) with 256 in H1.
  replace (c / 256 / 16) with (c / 4096) in H2 by (rewrite N.Div0.div_div; reflexivity).
  assert (c / 4096 / 16 = 0) as Hz.
  { rewrite N.Div0.div_div. change (4096 * 16) with 65536. by apply N.div_small. }
  rewrite Hz in H3. lia.
Qed.

Lemma unhex_hex_digit (d : N) : d < 16 -> unhex (hex_digit d) = d.
Proof.
  intros Hd. unfold unhex, hex_digit.
  destruct (N.ltb_spec d 10).
  - destruct (N.ltb_spec (48 + d) 58); lia.
  - destruct (N.ltb_spec (87 + d) 58); lia.
Qed.

Lemma unquote_unicode_escape (c : N) (tail : jsstring) :
  c < 65536 ->
  unquote_units (unicode_escape c ++ tail) = c :: unquote_units tail.
Proof.
  intros Hc. unfold unicode_escape.
  change (unquote_units ([92; 117; hex_digit (c / 4096 mod 16); hex_digit (c / 256 mod 16);
                          hex_digit (c / 16 mod 16); hex_digit (c mod 16)] ++ tail))
    with ((4096 * unhex (hex_digit (c / 4096 mod 16))
           + 256 * unhex (hex_digit (c / 256 mod 16))
           + 16 * unhex (hex_digit (c / 16 mod 16))
           + unhex (hex_digit (c mod 16))) :: unquote_units tail).
  rewrite !unhex_hex_digit by (apply N.mod_lt; lia).
  by rewrite hex_recompose.
Qed.

Lemma unquote_literal (c : N) (tail : jsstring) :
  c <> 92 -> unquote_units (c :: tail) = c :: unquote_units tail.
Proof. intros Hc. simpl. by destruct (N.eqb_spec c 92). Qed.

Lemma unquote_quote_unit (c : N) (tail : jsstring) :
  unquote_units (quote_unit c ++ tail) = c :: unquote_units tail.
Proof.
  unfold quote_unit.
  repeat match goal with
         | |- context [if ?x =? ?y then _ else _] =>
             destruct (N.eqb_spec x y) as [->|?]; [reflexivity|]
         end.
  destruct (N.ltb_spec c 32).
  - apply unquote_unicode_escape. lia.
  - by apply unquote_literal.
Qed.

Lemma quote_units_cons (c : N) (rest : jsstring) :
  quote_units (c :: rest)
  = if is_leading_surrogate c then
      match rest with
      | d :: rest' =>
          if is_trailing_surrogate d then c :: d :: quote_units rest'
          else unicode_escape c ++ quote_units rest
      | [] => unicode_escape c ++ []
      end
    else if is_trailing_surrogate c then unicode_escape c ++ quote_units rest
    else quote_unit c ++ quote_units rest.
Proof. destruct rest; simpl; by rewrite ?app_nil_r. Qed.

Lemma unquote_quote_units_bounded (n : nat) (s : jsstring) :
  (length s <= n)%nat -> unquote_units (quote_units s) = s.
Proof.
  revert s. induction n as [|n IH]; intros [|c rest] Hlen; simpl in Hlen; try done; try lia.
  assert (Hrest : unquote_units (quote_units rest) = rest) by (apply IH; lia).
  rewrite quote_units_cons.
  destruct (is_leading_surrogate c) eqn:Hlead.
  - assert (Hc : 0xD800 <= c <= 0xDBFF).
    { unfold is_leading_surrogate in Hlead. apply andb_prop in Hlead as [?%N.leb_le ?%N.leb_le]. lia. }
    destruct rest as [|d rest'].
    + rewrite unquote_unicode_escape by lia. reflexivity.
    + destruct (is_trailing_surrogate d) eqn:Htrail.
      * assert (Hd : 0xDC00 <= d <= 0xDFFF).
        { unfold is_trailing_surrogate in Htrail.
          apply andb_prop in Htrail as [?%N.leb_le ?%N.leb_le]. lia. }
        rewrite unquote_literal by lia. rewrite unquote_literal by lia.
        do 2 f_equal. apply IH. simpl in Hlen. lia.
      * rewrite unquote_unicode_escape by lia. by rewrite Hrest.
  - destruct (is_trailing_surrogate c) eqn:Htrail.
    + assert (Hc : 0xDC00 <= c <= 0xDFFF).
      { unfold is_trailing_surrogate in Htrail.
        apply andb_prop in Htrail as [?%N.leb_le ?%N.leb_le]. lia. }
      rewrite unquote_unicode_escape by lia. by rewrite Hrest.
    + rewrite unquote_quote_unit. by rewrite Hrest.
Qed.

Lemma unquote_quote_units (s : jsstring) : unquote_units (quote_units s) = s.
Proof. by apply (unquote_quote_units_bounded (length s)). Qed.

Lemma quote_units_inj (s t : jsstring) : quote_units s = quote_units t -> s = t.
Proof.
  intros H. rewrite <- (unquote_quote_units s), <- (unquote_quote_units t). by rewrite H.
Qed.

Lemma JSON_stringify_url_inj (s t : jsstring) :
  JSON_stringify_url s = JSON_stringify_url t -> s = t.
Proof.
  unfold JSON_stringify_url, QuoteJSONString. intros H.
  apply quote_units_inj.
  apply (app_inv_head (utf16 "{" ++ ([34] ++ quote_units (utf16 "url") ++ [34]) ++ utf16 ":" ++ [34])).
  apply (app_inv_tail ([34] ++ utf16 "}")).
  rewrite <- !app_assoc in *. exact H.
Qed.

(** X5: the request determines the url it carries.  Two urls that differ
    in any code unit give different bodies, whatever they contain (quotes,
    backslashes, control characters, lone surrogates): nothing is lost or
    merged by the escaping. *)
Theorem post_request_inj (s t : jsstring) :
  post_request s = post_request t -> s = t.
Proof.
  intros H. apply JSON_stringify_url_inj. exact (f_equal body H).
Qed.

Lemma post_request_inj_witness :
  trim (utf16 " http://a.example ") = utf16 "http://a.example".
Proof.
  exact (post_request_inj (trim (utf16 " http://a.example ")) (utf16 "http://a.example")
           eq_refl).
Defined.

(** ** Normalising twice *)

Lemma trim_head (s : jsstring) (c : N) :
  head (trim s) = Some c -> is_trimmed_unit c = false.
Proof.
  destruct (trimEnd_prefix (trimStart s)) as (after & Ht & _).
  fold (trim s) in Ht. destruct (trim s) as [|d rest]; [done|].
  intros [= ->]. exact (trimStart_head s c (rest ++ after) Ht).
Qed.

Lemma trim_last (s : jsstring) (c : N) :
  last (trim s) = Some c -> is_trimmed_unit c = false.
Proof. apply trimEnd_last. Qed.

Lemma trimStart_fixed (t : jsstring) :
  (forall c, head t = Some c -> is_trimmed_unit c = false) -> trimStart t = t.
Proof.
  destruct t as [|c t]; [done|]. intros H. simpl. by rewrite (H c eq_refl).
Qed.

Lemma trimEnd_fixed (t : jsstring) :
  (forall c, last t = Some c -> is_trimmed_unit c = false) -> trimEnd t = t.
Proof.
  unfold trimEnd. destruct t as [|c init _] using rev_ind; [done|].
  intros H. rewrite rev_app_distr. simpl app.
  rewrite trimStart_fixed.
  - simpl rev. by rewrite rev_involutive.
  - intros d [= <-]. apply H. by rewrite last_snoc.
Qed.

(** Trimming is idempotent: a trimmed string trims to itself. *)
Lemma trim_idempotent (s : jsstring) : trim (trim s) = trim s.
Proof.
  unfold trim at 1. rewrite (trimStart_fixed (trim s) (trim_head s)).
  apply trimEnd_fixed, trim_last.
Qed.

(** ** Runs of [App.jsx] *)

(** The four ways an event changes the world of [App.jsx]. *)
Lemma jsx_step_cases (w w' : World AppJsx.State) (e : Event) :
  step w e = Some w' ->
  (exists u, e = Change u
     /\ w' = {| app := AppJsx.setUrl u (app w);
                pending := pending w; issued := issued w |})
  \/ (e = Submit /\ trim (AppJsx.url (app w)) = []
      /\ w' = {| app := AppJsx.setError (Some (utf16 "Please enter a URL to scan."))
                          (AppJsx.setResult VNull (AppJsx.setError None (app w)));
                 pending := pending w; issued := issued w |})
  \/ (e = Submit /\ trim (AppJsx.url (app w)) <> []
      /\ w' = {| app := AppJsx.setLoading true
                          (AppJsx.setResult VNull (AppJsx.setError None (app w)));
                 pending := <[length (issued w)
                              := post_request (trim (AppJsx.url (app w)))]> (pending w);
                 issued := issued w ++ [post_request (trim (AppJsx.url (app w)))] |})
  \/ (exists id fetched r, e = Settle id fetched /\ pending w !! id = Some r
      /\ w' = {| app := AppJsx.handleSubmit_resume fetched (app w);
                 pending := delete id (pending w); issued := issued w |}).
Proof.
  destruct e as [u| |id fetched].
  - intros [= <-]. left. by exists u.
  - unfold step. simpl submit_start.
    destruct (decide (trim (AppJsx.url (app w)) = [])) as [Hblank|Hurl].
    + rewrite (jsx_start_blank (app w)) by (by apply trim_nil_iff).
      intros [= <-]. right. by left.
    + rewrite (jsx_start_dispatch (app w) Hurl).
      intros [= <-]. right. right. by left.
  - unfold step. destruct (pending w !! id) as [r|] eqn:Hid; [|done].
    intros [= <-]. right. right. right. by exists id, fetched, r.
Qed.

Lemma jsx_resume_url (fetched : outcome Response) (st : AppJsx.State) :
  AppJsx.url (AppJsx.handleSubmit_resume fetched st) = AppJsx.url st.
Proof.
  unfold AppJsx.handleSubmit_resume. by destruct (AppJsx.try_block fetched).
Qed.

Lemma jsx_run_trace (es : list Event) (w w' : World AppJsx.State) :
  run w es = Some w' ->
  AppJsx.url (app w') = field_text es (AppJsx.url (app w))
  /\ issued w'
     = issued w
       ++ map post_request
            (filter (fun t => t <> []) (map trim (submitted_texts es (AppJsx.url (app w))))).
Proof.
  revert w. induction es as [|e es IH]; intros w; simpl run.
  - intros [= <-]. simpl. by rewrite app_nil_r.
  - destruct (step w e) as [w1|] eqn:Hstep; [|done].
    intros [Hurl Hissued]%IH. rewrite Hurl, Hissued. clear Hurl Hissued IH.
    destruct (jsx_step_cases w w1 e Hstep)
      as [(u & -> & ->)|[(-> & Hblank & ->)|[(-> & Hfull & ->)|(id & o & r & -> & _ & ->)]]].
    + done.
    + simpl. rewrite filter_cons_False by (by intros H; apply H). done.
    + simpl. rewrite filter_cons_True by done. simpl. by rewrite <- app_assoc.
    + cbn [app issued]. by rewrite jsx_resume_url.
Qed.

(** X6: in [App.jsx] the requests handed to [fetch] over any sequence of
    events are exactly, in order, the trimmed field contents at each
    submission with a field that was not blank: a blank submission sends
    nothing, a settled request is never sent again, and no request is sent
    twice. *)
Theorem App_jsx_requests_follow_submissions
    (es : list Event) (w w' : World AppJsx.State) :
  run w es = Some w' ->
  issued w'
  = issued w
    ++ map post_request
         (filter (fun t => t <> []) (map trim (submitted_texts es (AppJsx.url (app w))))).
Proof. intros Hrun. exact (proj2 (jsx_run_trace es w w' Hrun)). Qed.

Lemma App_jsx_requests_follow_submissions_witness :
  issued <$> run (boot AppJsx.initial)
               [Submit; Change (utf16 " a "); Submit; Settle 0 (Thrown Samples.connection_refused);
                Change (utf16 "   "); Submit; Change (utf16 "b"); Submit]
  = Some [post_request (utf16 "a"); post_request (utf16 "b")].
Proof.
  destruct (run (boot AppJsx.initial)
              [Submit; Change (utf16 " a "); Submit;
               Settle 0 (Thrown Samples.connection_refused);
               Change (utf16 "   "); Submit; Change (utf16 "b"); Submit]) as [w'|] eqn:Hrun.
  - exact (f_equal Some (App_jsx_requests_follow_submissions _ _ w' Hrun)).
  - discriminate Hrun.
Defined.

(** X7: every request [App.jsx] ever hands to [fetch] is the POST to
    [/predict_url] around a url that is not empty and is its own trimmed
    form. *)
Theorem App_jsx_requests_normalised
    (es : list Event) (st : AppJsx.State) (w : World AppJsx.State) :
  run (boot st) es = Some w ->
  Forall (fun r => exists t, r = post_request t /\ t <> [] /\ trim t = t) (issued w).
Proof.
  intros [_ ->]%jsx_run_trace. simpl. apply Forall_forall. intros r.
  rewrite list_elem_of_fmap. intros (t & -> & Ht).
  apply list_elem_of_filter in Ht as [Hne Ht].
  apply list_elem_of_fmap in Ht as (u & -> & _).
  exists (trim u). split; [done|]. split; [done|]. apply trim_idempotent.
Qed.

Lemma App_jsx_requests_normalised_witness :
  Forall (fun r => exists t, r = post_request t /\ t <> [] /\ trim t = t)
    [post_request (utf16 "http://evil.example/login")].
Proof.
  exact (App_jsx_requests_normalised [Change Samples.evil_input; Submit] AppJsx.initial
           {| app := AppJsx.setLoading true (AppJsx.setUrl Samples.evil_input AppJsx.initial);
              pending := {[ 0%nat := post_request (utf16 "http://evil.example/login") ]};
              issued := [post_request (utf16 "http://evil.example/login")] |}
           eq_refl).
Defined.




(** X9: the busy indication of [App.jsx] is never stuck: whenever the button
    reads "Checking...", a request is in flight.  (Stated for any start
    that has this property; the initial state is not loading.) *)
Theorem App_jsx_loading_means_in_flight
    (es : list Event) (w w' : World AppJsx.State) :
  (AppJsx.loading (app w) = true -> exists id r, pending w !! id = Some r) ->
  run w es = Some w' ->
  AppJsx.button_text (AppJsx.render (app w')) = utf16 "Checking..." ->
  exists id r, pending w' !! id = Some r.
Proof.
  intros Hw Hrun Hbutton.
  assert (Hloading : AppJsx.loading (app w') = true).
  { unfold AppJsx.render in Hbutton. simpl in Hbutton.
    by destruct (AppJsx.loading (app w')). }
  clear Hbutton. revert w Hw Hrun. induction es as [|e es IH]; intros w Hw; simpl run.
  - intros [= <-]. by apply Hw.
  - destruct (step w e) as [w1|] eqn:Hstep; [|done].
    apply IH.
    destruct (jsx_step_cases w w1 e Hstep)
      as [(u & -> & ->)|[(-> & _ & ->)|[(-> & _ & ->)|(id & o & r & -> & _ & ->)]]];
      cbn [app pending].
    + exact Hw.
    + exact Hw.
    + intros _. eexists _, _. apply lookup_insert_eq.
    + unfold AppJsx.handleSubmit_resume.
      by destruct (AppJsx.try_block o).
Qed.

Lemma App_jsx_loading_means_in_flight_witness :
  exists id r,
    ({[ 0%nat := post_request (utf16 "http://evil.example/login") ]} : gmap nat Request)
      !! id = Some r.
Proof.
  refine (App_jsx_loading_means_in_flight [Change Samples.evil_input; Submit]
            (boot AppJsx.initial)
            {| app := AppJsx.setLoading true (AppJsx.setUrl Samples.evil_input AppJsx.initial);
               pending := {[ 0%nat := post_request (utf16 "http://evil.example/login") ]};
               issued := [post_request (utf16 "http://evil.example/login")] |}
            _ eq_refl eq_refl).
  discriminate.
Defined.



(** X11: one complete submission in [App.jsx] (submit with a field that is
    not blank, then that request settles, nothing in between) ends with
    loading off and with either the parsed body as the result and no
    error, or a non-empty error and no result: never both, and an error
    or verdict from before the submission is gone either way. *)
Theorem App_jsx_submission_outcome
    (w : World AppJsx.State) (fetched : outcome Response) :
  trim (AppJsx.url (app w)) <> [] ->
  exists w',
    run w [Submit; Settle (length (issued w)) fetched] = Some w'
    /\ AppJsx.loading (app w') = false
    /\ AppJsx.url (app w') = AppJsx.url (app w)
    /\ ((exists resp data,
           fetched = Fulfilled resp /\ ok resp = true /\ json resp = Fulfilled data
           /\ AppJsx.result (app w') = data /\ AppJsx.error (app w') = None)
        \/ (exists m,
              m <> [] /\ AppJsx.error (app w') = Some m
              /\ AppJsx.result (app w') = VNull)).
Proof.
  intros Hurl. eexists. split.
  - simpl run. rewrite (jsx_start_dispatch _ Hurl). simpl pending.
    rewrite lookup_insert_eq. reflexivity.
  - cbn [app]. unfold AppJsx.handleSubmit_resume, AppJsx.try_block.
    destruct fetched as [resp|err]; simpl.
    + destruct (ok resp) eqn:Hok; simpl.
      * destruct (json resp) as [data|err] eqn:Hjson; simpl.
        -- repeat split. left. by exists resp, data.
        -- repeat split. right. eexists. repeat split.
           by apply or_string_nonempty.
      * destruct (text resp) as [body_text|err]; simpl;
          (repeat split; right; eexists; repeat split; by apply or_string_nonempty).
    + repeat split. right. eexists. repeat split. by apply or_string_nonempty.
Qed.

Lemma App_jsx_submission_outcome_witness :
  exists w',
    run Samples.after_phishing_scan [Submit; Settle 1 (Fulfilled Samples.safe_A_response)]
    = Some w'
    /\ AppJsx.loading (app w') = false
    /\ AppJsx.url (app w') = utf16 "http://evil.example/login"
    /\ ((exists resp data,
           Fulfilled Samples.safe_A_response = Fulfilled resp
           /\ ok resp = true /\ json resp = Fulfilled data
           /\ AppJsx.result (app w') = data /\ AppJsx.error (app w') = None)
        \/ (exists m,
              m <> [] /\ AppJsx.error (app w') = Some m
              /\ AppJsx.result (app w') = VNull)).
Proof.
  refine (App_jsx_submission_outcome Samples.after_phishing_scan
            (Fulfilled Samples.safe_A_response) _).
  discriminate.
Defined.

(** X12: in [App.jsx], when a response arrives but its body cannot be read
    ([json()] rejects on a 2xx response, e.g. the body is not JSON, or
    [text()] rejects on any other), the error becomes the message of that
    rejection, or "Network error" when it has none; the result is left as
    it was and loading is switched off. *)
Theorem App_jsx_unreadable_body
    (st : AppJsx.State) (resp : Response) (err : JsError) :
  ok resp = true /\ json resp = Thrown err
  \/ ok resp = false /\ text resp = Thrown err ->
  let st' := AppJsx.handleSubmit_resume (Fulfilled resp) st in
  AppJsx.error st' = Some (or_string (message err) (utf16 "Network error"))
  /\ AppJsx.result st' = AppJsx.result st
  /\ AppJsx.loading st' = false
  /\ AppJsx.error_box (AppJsx.render st')
     = Element (or_string (message err) (utf16 "Network error")).
Proof.
  intros Hbody st'. unfold st', AppJsx.handleSubmit_resume, AppJsx.try_block. simpl.
  destruct Hbody as [[-> ->]|[-> ->]]; simpl; repeat split;
    unfold and_then; simpl truthy;
    (rewrite bool_decide_eq_false_2; [done|]); by apply or_string_nonempty.
Qed.

Lemma App_jsx_unreadable_body_witness :
  let st' :=
    AppJsx.handleSubmit_resume
      (Fulfilled (Samples.html_response 200 "<html>ok</html>"))
      (AppJsx.setLoading true AppJsx.initial) in
  AppJsx.error st' = Some (utf16 "Unexpected token '<'")
  /\ AppJsx.result st' = VNull
  /\ AppJsx.loading st' = false
  /\ AppJsx.error_box (AppJsx.render st') = Element (utf16 "Unexpected token '<'").
Proof.
  exact (App_jsx_unreadable_body (AppJsx.setLoading true AppJsx.initial)
           (Samples.html_response 200 "<html>ok</html>")
           (Error (utf16 "Unexpected token '<'")) (or_introl (conj eq_refl eq_refl))).
Defined.



(** ** Runs of [App.js] *)

Lemma js_step_cases (w w' : World AppJs.State) (e : Event) :
  step w e = Some w' ->
  (exists u, e = Change u
     /\ w' = {| app := AppJs.setUrl u (app w);
                pending := pending w; issued := issued w |})
  \/ (e = Submit
      /\ w' = {| app := AppJs.setResult VNull (AppJs.setLoading true (app w));
                 pending := <[length (issued w)
                              := post_request (AppJs.url (app w))]> (pending w);
                 issued := issued w ++ [post_request (AppJs.url (app w))] |})
  \/ (exists id fetched r, e = Settle id fetched /\ pending w !! id = Some r
      /\ w' = {| app := AppJs.handleSubmit_resume fetched (app w);
                 pending := delete id (pending w); issued := issued w |}).
Proof.
  destruct e as [u| |id fetched].
  - intros [= <-]. left. by exists u.
  - intros [= <-]. right. by left.
  - unfold step. destruct (pending w !! id) as [r|] eqn:Hid; [|done].
    intros [= <-]. right. right. by exists id, fetched, r.
Qed.

Lemma js_resume_url (fetched : outcome Response) (st : AppJs.State) :
  AppJs.url (AppJs.handleSubmit_resume fetched st) = AppJs.url st.
Proof. by rewrite js_resume. Qed.

(** X14: in [App.js] every submission hands [fetch] exactly one POST whose
    body carries the field's text as typed (blank or not, untrimmed), in
    the order of the submissions; responses send nothing, and the field
    keeps the text of the last [onChange]. *)
Theorem App_js_requests_follow_submissions
    (es : list Event) (w w' : World AppJs.State) :
  run w es = Some w' ->
  issued w' = issued w ++ map post_request (submitted_texts es (AppJs.url (app w)))
  /\ AppJs.input_value (AppJs.render (app w')) = field_text es (AppJs.url (app w)).
Proof.
  revert w. induction es as [|e es IH]; intros w; simpl run.
  - intros [= <-]. simpl. by rewrite app_nil_r.
  - destruct (step w e) as [w1|] eqn:Hstep; [|done].
    intros [Hissued Hurl]%IH. rewrite Hissued, Hurl. clear Hurl Hissued IH.
    destruct (js_step_cases w w1 e Hstep)
      as [(u & -> & ->)|[(-> & ->)|(id & o & r & -> & _ & ->)]].
    + done.
    + simpl. by rewrite <- app_assoc.
    + cbn [app issued]. by rewrite js_resume_url.
Qed.

Lemma App_js_requests_follow_submissions_witness :
  [post_request (utf16 "   "); post_request Samples.evil_input]
  = [] ++ map post_request
            (submitted_texts
               [Change (utf16 "   "); Submit; Change Samples.evil_input; Submit] [])
  /\ Samples.evil_input
     = field_text [Change (utf16 "   "); Submit; Change Samples.evil_input; Submit] [].
Proof.
  exact (App_js_requests_follow_submissions
           [Change (utf16 "   "); Submit; Change Samples.evil_input; Submit]
           (boot AppJs.initial)
           {| app := AppJs.setResult VNull
                       (AppJs.setLoading true
                          (AppJs.setUrl Samples.evil_input
                             (AppJs.setResult VNull
                                (AppJs.setLoading true
                                   (AppJs.setUrl (utf16 "   ") AppJs.initial)))));
              pending := <[1%nat := post_request Samples.evil_input]>
                           {[ 0%nat := post_request (utf16 "   ") ]};
              issued := [post_request (utf16 "   "); post_request Samples.evil_input] |}
           eq_refl).
Defined.

(** X15: the spinner of [App.js] is never stuck: whenever it is drawn, a
    request is in flight.  (Stated for any start that has this property;
    the initial state is not loading.) *)
Theorem App_js_spinner_means_in_flight
    (es : list Event) (w w' : World AppJs.State) :
  (AppJs.loading (app w) = true -> exists id r, pending w !! id = Some r) ->
  run w es = Some w' ->
  AppJs.spinner (AppJs.render (app w')) = true ->
  exists id r, pending w' !! id = Some r.
Proof.
  intros Hw Hrun Hloading. change (AppJs.loading (app w') = true) in Hloading.
  revert w Hw Hrun. induction es as [|e es IH]; intros w Hw; simpl run.
  - intros [= <-]. by apply Hw.
  - destruct (step w e) as [w1|] eqn:Hstep; [|done].
    apply IH.
    destruct (js_step_cases w w1 e Hstep)
      as [(u & -> & ->)|[(-> & ->)|(id & o & r & -> & _ & ->)]];
      cbn [app pending].
    + exact Hw.
    + intros _. eexists _, _. apply lookup_insert_eq.
    + by rewrite js_resume.
Qed.

Lemma App_js_spinner_means_in_flight_witness :
  exists id r,
    ({[ 0%nat := post_request Samples.evil_input ]} : gmap nat Request) !! id = Some r.
Proof.
  refine (App_js_spinner_means_in_flight [Change Samples.evil_input; Submit]
            (boot AppJs.initial)
            {| app := AppJs.setResult VNull
                        (AppJs.setLoading true (AppJs.setUrl Samples.evil_input AppJs.initial));
               pending := {[ 0%nat := post_request Samples.evil_input ]};
               issued := [post_request Samples.evil_input] |}
            _ eq_refl eq_refl).
  discriminate.
Defined.


(** ** What [App.jsx] draws *)











(** ** Shape A on the screen *)




(** ** The score and the reasons of any answer *)




(** ** Payloads of neither shape *)




(** ** Transport failures in [App.jsx] *)








(** ** Two submissions in flight *)








(** ** The two components side by side *)





